(** * sktime.transformations.series.filter: the [Filter] transformer

    A shallow embedding of [Filter.__init__] and [Filter._transform]
    (sktime/transformations/series/filter.py) and the properties of the
    adapter: parameter validation, axis normalisation and the single call
    into [mne.filter.filter_data]. *)

From Stdlib Require Import ZArith List String Bool Lia.
From Stdlib Require Import Floats.SpecFloat.
Import ListNotations.
Open Scope Z_scope.
Open Scope string_scope.

(** ** Python values *)

Module Py.

(** The values a caller can hand to the constructor.  A Python [float] is
    an IEEE binary64 number, modelled by the Standard Library's
    [spec_float]; a [dict] keeps its items in insertion order. *)
#[local] Unset Elimination Schemes.
Inductive value : Type :=
| VNone
| VBool (b : bool)
| VInt (z : Z)
| VFloat (f : spec_float)
| VStr (s : string)
| VDict (items : list (value * value)).
#[local] Set Elimination Schemes.

(** The classes named in the source. *)
Inductive class : Type :=
| c_int | c_float | c_NoneType | c_bool | c_str | c_dict.

(** [type(v)]. *)
Definition type (v : value) : class :=
  match v with
  | VNone => c_NoneType
  | VBool _ => c_bool
  | VInt _ => c_int
  | VFloat _ => c_float
  | VStr _ => c_str
  | VDict _ => c_dict
  end.

Definition class_eqb (c d : class) : bool :=
  match c, d with
  | c_int, c_int | c_float, c_float | c_NoneType, c_NoneType
  | c_bool, c_bool | c_str, c_str | c_dict, c_dict => true
  | _, _ => false
  end.

(** [issubclass c d]: every class is its own subclass, and [bool] is a
    subclass of [int]. *)
Definition issubclass (c d : class) : bool :=
  class_eqb c d ||
  match c, d with
  | c_bool, c_int => true
  | _, _ => false
  end.

(** [isinstance(v, (c1, ..., cn))]. *)
Definition isinstance (v : value) (cs : list class) : bool :=
  existsb (issubclass (type v)) cs.

(** [v is not None]. *)
Definition is_not_None (v : value) : bool :=
  match v with
  | VNone => false
  | _ => true
  end.

(** Exceptions raised by the code under study. *)
Inductive exn : Type :=
| TypeError
| ValueError (msg : string).

Inductive result (A : Type) : Type :=
| Ok (a : A)
| Err (e : exn).
Arguments Ok {A} a.
Arguments Err {A} e.

Definition bind {A B} (r : result A) (k : A -> result B) : result B :=
  match r with
  | Ok a => k a
  | Err e => Err e
  end.

Notation "x <- c ;; k" := (bind c (fun x => k))
  (at level 61, c at next level, right associativity).

(** *** Ordering of numbers

    Python compares [int] with [float] exactly, without rounding the
    integer.  A number is therefore read as an extended real: a NaN, an
    infinity, or the dyadic rational [m * 2 ^ e]. *)
Inductive xreal : Type :=
| XNaN
| XInf (negative : bool)
| XFin (m e : Z).

Definition of_float (f : spec_float) : xreal :=
  match f with
  | S754_zero _ => XFin 0 0
  | S754_infinity s => XInf s
  | S754_nan => XNaN
  | S754_finite s m e => XFin (if s then Z.neg m else Z.pos m) e
  end.

(** The numeric reading of a value; [None] for a value that is no number. *)
Definition number (v : value) : option xreal :=
  match v with
  | VBool b => Some (XFin (if b then 1 else 0) 0)
  | VInt z => Some (XFin z 0)
  | VFloat f => Some (of_float f)
  | _ => None
  end.

(** Exact comparison of two extended reals; [None] when one is a NaN. *)
Definition xcompare (x y : xreal) : option comparison :=
  match x, y with
  | XNaN, _ | _, XNaN => None
  | XInf true, XInf true | XInf false, XInf false => Some Eq
  | XInf true, _ | _, XInf false => Some Lt
  | XInf false, _ | _, XInf true => Some Gt
  | XFin m1 e1, XFin m2 e2 =>
      let e := Z.min e1 e2 in
      Some (Z.compare (m1 * 2 ^ (e1 - e)) (m2 * 2 ^ (e2 - e)))
  end.

Definition xgtb (x y : xreal) : bool :=
  match xcompare x y with
  | Some Gt => true
  | _ => false
  end.

Definition xleb (x y : xreal) : bool :=
  match xcompare x y with
  | Some Lt | Some Eq => true
  | _ => false
  end.

(** [a > b] and [a <= b].  Between two numbers the answer is a [bool]
    (false when a NaN is involved); any other pair of the values above
    raises [TypeError]. *)
Definition gt (a b : value) : result bool :=
  match number a, number b with
  | Some x, Some y => Ok (xgtb x y)
  | _, _ => Err TypeError
  end.

Definition le (a b : value) : result bool :=
  match number a, number b with
  | Some x, Some y => Ok (xleb x y)
  | _, _ => Err TypeError
  end.

End Py.

Import Py.

(** ** numpy arrays *)

Module Np.

(** Array elements: integers or binary64 numbers. *)
Inductive scalar : Type :=
| SInt (z : Z)
| SFloat (f : spec_float).

(** An [ndarray] is its shape together with the element found at each
    multi-index.  Only indices inside the shape are meaningful. *)
Record ndarray : Type := mk_ndarray {
  shape : list nat;
  item : list nat -> scalar
}.

(** [X.ndim] *)
Definition ndim (X : ndarray) : nat := List.length (shape X).

(** [X.transpose()] without arguments reverses the order of the axes:
    the element at index [(i1, ..., in)] of the result is the element at
    [(in, ..., i1)] of [X]. *)
Definition transpose (X : ndarray) : ndarray :=
  {| shape := rev (shape X);
     item := fun idx => item X (rev idx) |}.

End Np.

Import Np.

(** ** The Filter class *)

(** The instance attributes set by [__init__]. *)
Record Filter : Type := mk_Filter {
  sfreq : value;
  l_freq : value;
  h_freq : value;
  filter_kwargs : value
}.

(** [Filter._tags] *)
Inductive tag_value : Type :=
| TStr (s : string)
| TBool (b : bool)
| TList (l : list string).

Definition _tags : list (string * tag_value) :=
  [ ("scitype:transform-input", TStr "Series");
    ("scitype:transform-output", TStr "Series");
    ("scitype:instancewise", TBool true);
    ("X_inner_mtype", TList ["np.ndarray"; "numpy3D"]);
    ("y_inner_mtype", TStr "None");
    ("fit_is_empty", TBool true);
    ("python_dependencies", TStr "mne") ].

(** Modelled from the spec: [BaseTransformer.__init__], reached through
    [super(Filter, self).__init__()], is not part of this file's source.
    It receives no argument of the constructor; the contract is that
    construction stores the four values and does nothing else, so the call
    returns normally and leaves the four attributes as they are. *)
Definition BaseTransformer__init__ (self : Filter) : result Filter :=
  Ok self.

(** [Filter.__init__(self, sfreq, l_freq, h_freq, filter_kwargs=None)].
    The result is the constructed object, or the exception that leaves the
    constructor.  Both operands of each [&] are evaluated before the
    conjunction is taken. *)
Definition __init__ (sfreq l_freq h_freq filter_kwargs : value)
  : result Filter :=
  let self := {| sfreq := sfreq; l_freq := l_freq; h_freq := h_freq;
                 filter_kwargs := filter_kwargs |} in
  if negb (isinstance sfreq [c_int; c_float]
           && isinstance l_freq [c_int; c_float; c_NoneType]
           && isinstance h_freq [c_int; c_float; c_NoneType])
  then Err TypeError
  else if is_not_None l_freq && is_not_None h_freq then
    l_pos <- gt l_freq (VInt 0) ;;
    h_pos <- gt h_freq (VInt 0) ;;
    if negb (l_pos && h_pos)
    then Err (ValueError "Negative values not supported")
    else
      l_above <- gt l_freq h_freq ;;
      if l_above
      then Err (ValueError "High frequency must be higher than low frequency")
      else BaseTransformer__init__ self
  else BaseTransformer__init__ self.

(** The condition of the first branch of [__init__], before its negation. *)
Definition type_check (sfreq l_freq h_freq : value) : bool :=
  isinstance sfreq [c_int; c_float]
  && isinstance l_freq [c_int; c_float; c_NoneType]
  && isinstance h_freq [c_int; c_float; c_NoneType].

(** The default of the fourth parameter. *)
Definition filter_kwargs_default : value := VNone.

(** ** The call into [mne.filter.filter_data] *)

(** What [filter.filter_data(X, sfreq=..., l_freq=..., h_freq=..., **kwargs)]
    hands to the routine: one positional array, the three keywords written
    at the call site, and the items contributed by [**kwargs]. *)
Record filter_data_call : Type := mk_call {
  call_data : ndarray;
  call_sfreq : value;
  call_l_freq : value;
  call_h_freq : value;
  call_extra : list (string * value)
}.

(** A computation that may call the external routine.  [_transform] is
    written against this interface; what the routine answers is supplied by
    whoever runs the computation. *)
Inductive prog (A : Type) : Type :=
| Return (a : A)
| Raise (e : exn)
| Call_filter_data (c : filter_data_call) (k : ndarray -> prog A).
Arguments Return {A} a.
Arguments Raise {A} e.
Arguments Call_filter_data {A} c k.

(** The keywords written out at the call site. *)
Definition explicit_keywords : list string := ["sfreq"; "l_freq"; "h_freq"].

(** Expansion of the items of a mapping after [**]: each key has to be a
    string, and none may repeat a keyword already written at the call site;
    otherwise the interpreter raises [TypeError] while it builds the
    arguments, before the callee is entered. *)
Fixpoint keyword_items (items : list (value * value))
  : result (list (string * value)) :=
  match items with
  | [] => Ok []
  | (VStr k, v) :: rest =>
      if existsb (String.eqb k) explicit_keywords then Err TypeError
      else rest' <- keyword_items rest ;; Ok ((k, v) :: rest')
  | _ :: _ => Err TypeError
  end.

(** [**kwargs]: the operand has to be a mapping. *)
Definition expand_kwargs (kwargs : value) : result (list (string * value)) :=
  match kwargs with
  | VDict items => keyword_items items
  | _ => Err TypeError
  end.

(** The optional second argument of [_transform]: any value or array. *)
Inductive label : Type :=
| LValue (v : value)
| LArray (a : ndarray).

(** [Filter._transform(self, X, y=None)], with [mne] importable. *)
Definition _transform (self : Filter) (X : ndarray) (y : label)
  : prog ndarray :=
  let X := if Nat.eqb (ndim X) 2 then transpose X else X in
  let sfreq := sfreq self in
  let l_freq := l_freq self in
  let h_freq := h_freq self in
  let kwargs := filter_kwargs self in
  match expand_kwargs kwargs with
  | Err e => Raise e
  | Ok extra =>
      Call_filter_data
        {| call_data := X; call_sfreq := sfreq; call_l_freq := l_freq;
           call_h_freq := h_freq; call_extra := extra |}
        (fun Xt =>
           let Xt := if Nat.eqb (ndim Xt) 2 then transpose Xt else Xt in
           Return Xt)
  end.

(** The default of [y]. *)
Definition y_default : label := LValue VNone.

(** Running a computation against an external routine.  The routine may
    keep state of its own, of type [W]; an exception it raises leaves the
    computation unchanged. *)
Fixpoint run {W A : Type}
    (routine : W -> filter_data_call -> W * result ndarray)
    (w : W) (p : prog A) : W * result A :=
  match p with
  | Return a => (w, Ok a)
  | Raise e => (w, Err e)
  | Call_filter_data c k =>
      match routine w c with
      | (w', Ok Xt) => run routine w' (k Xt)
      | (w', Err e) => (w', Err e)
      end
  end.

(** The calls a computation makes, in order, when run against a routine. *)
Fixpoint calls {W A : Type}
    (routine : W -> filter_data_call -> W * result ndarray)
    (w : W) (p : prog A) : list filter_data_call :=
  match p with
  | Return _ | Raise _ => []
  | Call_filter_data c k =>
      c :: match routine w c with
           | (w', Ok Xt) => calls routine w' (k Xt)
           | (_, Err _) => []
           end
  end.

(** The step [if A.ndim == 2: A = A.transpose()], applied by [_transform]
    to [X] before the call and to [Xt] after it. *)
Definition flip_if_2d (A : ndarray) : ndarray :=
  if Nat.eqb (ndim A) 2 then transpose A else A.

(** ** The object under construction *)

(** The instance dictionary of an object: the value of each attribute
    that has been set. *)
Definition instance : Type := string -> option value.

(** An object on which no attribute has been set yet. *)
Definition fresh : instance := fun _ => None.

(** [self.name = v] *)
Definition setattr (self : instance) (name : string) (v : value)
  : instance :=
  fun n => if String.eqb n name then Some v else self n.

(** The attributes that [Filter.__init__] writes itself. *)
Definition own_attributes : list string :=
  ["sfreq"; "l_freq"; "h_freq"; "filter_kwargs"].

(** Lines 57-60: the four assignments, in their order. *)
Definition store_arguments (self : instance)
    (sfreq l_freq h_freq filter_kwargs : value) : instance :=
  let self := setattr self "sfreq" sfreq in
  let self := setattr self "l_freq" l_freq in
  let self := setattr self "h_freq" h_freq in
  setattr self "filter_kwargs" filter_kwargs.

(** [Filter.__init__] as it acts on the object [self].  The constructor of
    the base class, called last through [super(Filter, self).__init__()],
    is not part of this file's source and is a parameter: it receives the
    object and returns it, possibly with further attributes set, or
    raises. *)
Definition Filter__init__
    (super__init__ : instance -> result instance) (self : instance)
    (sfreq l_freq h_freq filter_kwargs : value) : result instance :=
  let self := setattr self "sfreq" sfreq in
  let self := setattr self "l_freq" l_freq in
  let self := setattr self "h_freq" h_freq in
  let self := setattr self "filter_kwargs" filter_kwargs in
  if negb (isinstance sfreq [c_int; c_float]
           && isinstance l_freq [c_int; c_float; c_NoneType]
           && isinstance h_freq [c_int; c_float; c_NoneType])
  then Err TypeError
  else if is_not_None l_freq && is_not_None h_freq then
    l_pos <- gt l_freq (VInt 0) ;;
    h_pos <- gt h_freq (VInt 0) ;;
    if negb (l_pos && h_pos)
    then Err (ValueError "Negative values not supported")
    else
      l_above <- gt l_freq h_freq ;;
      if l_above
      then Err (ValueError "High frequency must be higher than low frequency")
      else super__init__ self
  else super__init__ self.

(** A base-class constructor that keeps a flag of its own on the object,
    the fitted flag of an estimator, and touches nothing else. *)
Definition base_sets_fitted_flag (self : instance) : result instance :=
  Ok (setattr self "_is_fitted" (VBool false)).

(** ** Sample inputs *)

(** A series of three time steps on two channels, numbered row by row. *)
Definition X_series : ndarray :=
  {| shape := [3; 2]%nat;
     item := fun idx =>
       match idx with
       | [i; j] => SInt (Z.of_nat (2 * i + j))
       | _ => SInt 0
       end |}.

(** A panel of two instances, two channels and three time steps. *)
Definition X_panel : ndarray :=
  {| shape := [2; 2; 3]%nat;
     item := fun idx =>
       match idx with
       | [p; c; t] => SInt (Z.of_nat (6 * p + 3 * c + t))
       | _ => SInt 0
       end |}.

(** A routine that answers every call with its input array and counts the
    calls it has served. *)
Definition counting_identity (n : nat) (c : filter_data_call)
  : nat * result ndarray :=
  (S n, Ok (call_data c)).

(** What a caller observes of a call that may raise: the exception, if
    any. *)
Definition raised {A : Type} (r : result A) : option exn :=
  match r with
  | Ok _ => None
  | Err e => Some e
  end.

(** The items of [**kwargs] read back as the items of a [dict]. *)
Definition dict_of_keywords (extra : list (string * value))
  : list (value * value) :=
  map (fun kv => (VStr (fst kv), snd kv)) extra.

(** ** Properties of the comparisons and of [isinstance] *)

Section Comparisons.

Lemma isinstance_number (v : value) :
  isinstance v [c_int; c_float] = true <-> exists x, number v = Some x.
Proof.
  split.
  - destruct v; cbn; intros H; try discriminate; eauto.
  - intros [x H]. destruct v; cbn in *; try discriminate; reflexivity.
Qed.

Lemma isinstance_optional_number (v : value) :
  isinstance v [c_int; c_float; c_NoneType] = true ->
  is_not_None v = true ->
  exists x, number v = Some x.
Proof.
  destruct v; cbn; intros H1 H2; try discriminate; eauto.
Qed.

Lemma number_isinstance (v : value) (x : xreal) :
  number v = Some x ->
  isinstance v [c_int; c_float] = true /\
  isinstance v [c_int; c_float; c_NoneType] = true /\
  is_not_None v = true.
Proof.
  destruct v; cbn; intros H; try discriminate; auto.
Qed.

Lemma gt_Ok (a b : value) (r : bool) :
  gt a b = Ok r ->
  exists x y, number a = Some x /\ number b = Some y /\ r = xgtb x y.
Proof.
  unfold gt. destruct (number a) as [x|], (number b) as [y|];
    intros H; inversion H; eauto.
Qed.

Lemma le_Ok (a b : value) (r : bool) :
  le a b = Ok r ->
  exists x y, number a = Some x /\ number b = Some y /\ r = xleb x y.
Proof.
  unfold le. destruct (number a) as [x|], (number b) as [y|];
    intros H; inversion H; eauto.
Qed.

Lemma gt_numbers (a b : value) (x y : xreal) :
  number a = Some x -> number b = Some y -> gt a b = Ok (xgtb x y).
Proof. unfold gt. intros -> ->. reflexivity. Qed.

Lemma le_numbers (a b : value) (x y : xreal) :
  number a = Some x -> number b = Some y -> le a b = Ok (xleb x y).
Proof. unfold le. intros -> ->. reflexivity. Qed.

(** A number not above [y] is not above it. *)
Lemma xleb_not_xgtb (x y : xreal) : xleb x y = true -> xgtb x y = false.
Proof.
  unfold xleb, xgtb. destruct (xcompare x y) as [[ | | ]|];
    intros H; try discriminate; reflexivity.
Qed.

(** What is above some number is not a NaN. *)
Lemma xgtb_not_nan (x y : xreal) : xgtb x y = true -> x <> XNaN.
Proof. intros H ->. discriminate. Qed.

(** Away from NaN, [>] and [<=] are complementary. *)
Lemma xgtb_xleb (x y : xreal) :
  x <> XNaN -> y <> XNaN -> xgtb x y = negb (xleb x y).
Proof.
  unfold xgtb, xleb. intros Hx Hy.
  destruct x as [ | [ | ] | m1 e1]; try congruence;
    destruct y as [ | [ | ] | m2 e2]; try congruence; cbn; try reflexivity.
  destruct (Z.compare _ _); reflexivity.
Qed.

End Comparisons.

(** ** Properties of the constructor *)

Section Constructor.

Variables sfreq0 l_freq0 h_freq0 kwargs0 : value.

Lemma init_type_error :
  type_check sfreq0 l_freq0 h_freq0 = false ->
  __init__ sfreq0 l_freq0 h_freq0 kwargs0 = Err TypeError.
Proof.
  unfold type_check, __init__. intros ->. reflexivity.
Qed.

(** With one cutoff absent nothing is checked beyond the types. *)
Lemma init_one_absent :
  type_check sfreq0 l_freq0 h_freq0 = true ->
  is_not_None l_freq0 && is_not_None h_freq0 = false ->
  __init__ sfreq0 l_freq0 h_freq0 kwargs0 = Ok (mk_Filter sfreq0 l_freq0 h_freq0 kwargs0).
Proof.
  unfold type_check, __init__. intros -> ->. reflexivity.
Qed.

(** With both cutoffs given and the types right, the outcome is decided
    by the three comparisons. *)
Lemma init_both_given (x y : xreal) :
  isinstance sfreq0 [c_int; c_float] = true ->
  number l_freq0 = Some x ->
  number h_freq0 = Some y ->
  __init__ sfreq0 l_freq0 h_freq0 kwargs0 =
    if negb (xgtb x (XFin 0 0) && xgtb y (XFin 0 0))
    then Err (ValueError "Negative values not supported")
    else if xgtb x y
    then Err (ValueError "High frequency must be higher than low frequency")
    else Ok (mk_Filter sfreq0 l_freq0 h_freq0 kwargs0).
Proof.
  intros Hs Hl Hh.
  destruct (number_isinstance _ _ Hl) as (_ & Hl1 & Hl2).
  destruct (number_isinstance _ _ Hh) as (_ & Hh1 & Hh2).
  unfold __init__. rewrite Hs, Hl1, Hh1, Hl2, Hh2. cbn [andb negb].
  rewrite (gt_numbers l_freq0 (VInt 0) x (XFin 0 0) Hl eq_refl).
  rewrite (gt_numbers h_freq0 (VInt 0) y (XFin 0 0) Hh eq_refl).
  cbn [bind].
  destruct (negb _); [reflexivity|].
  rewrite (gt_numbers _ _ _ _ Hl Hh). cbn [bind].
  destruct (xgtb x y); reflexivity.
Qed.

End Constructor.

Lemma is_not_None_iff (v : value) : is_not_None v = true <-> v <> VNone.
Proof.
  destruct v; cbn; split; intros H; try reflexivity; try discriminate;
    congruence.
Qed.

Lemma init_checked_not_type_error (sfreq l_freq h_freq kwargs : value) :
  type_check sfreq l_freq h_freq = true ->
  __init__ sfreq l_freq h_freq kwargs <> Err TypeError.
Proof.
  intros Htc.
  destruct (is_not_None l_freq && is_not_None h_freq) eqn:Hboth.
  - pose proof Htc as Htc'. unfold type_check in Htc'.
    apply andb_prop in Htc' as [Htc' Hh]. apply andb_prop in Htc' as [Hs Hl].
    apply andb_prop in Hboth as [Hln Hhn].
    destruct (isinstance_optional_number _ Hl Hln) as [x Hx].
    destruct (isinstance_optional_number _ Hh Hhn) as [y Hy].
    rewrite (init_both_given sfreq l_freq h_freq kwargs x y Hs Hx Hy).
    destruct (negb _); [discriminate|]. destruct (xgtb x y); discriminate.
  - rewrite (init_one_absent _ _ _ _ Htc Hboth). discriminate.
Qed.

(** C4: construction raises [TypeError] exactly when [sfreq] is no instance
    of [int] or [float], or [l_freq] or [h_freq] is no instance of [int],
    [float] or [NoneType] ([bool] being a subclass of [int]); in particular
    [sfreq="100"] raises [TypeError] whatever the other arguments are. *)
Theorem init_type_error_iff :
  (forall sfreq l_freq h_freq kwargs : value,
     __init__ sfreq l_freq h_freq kwargs = Err TypeError <->
     (isinstance sfreq [c_int; c_float] = false \/
      isinstance l_freq [c_int; c_float; c_NoneType] = false \/
      isinstance h_freq [c_int; c_float; c_NoneType] = false)) /\
  (forall l_freq h_freq kwargs : value,
     __init__ (VStr "100") l_freq h_freq kwargs = Err TypeError).
Proof.
  split; [|reflexivity].
  intros sfreq l_freq h_freq kwargs. split.
  - intros H. destruct (type_check sfreq l_freq h_freq) eqn:Htc.
    + exfalso. exact (init_checked_not_type_error _ _ _ _ Htc H).
    + unfold type_check in Htc.
      apply andb_false_iff in Htc as [Htc|Htc]; [|auto].
      apply andb_false_iff in Htc as [Htc|Htc]; auto.
  - intros H. apply init_type_error. unfold type_check.
    destruct H as [-> | [-> | ->]]; cbn [andb];
      rewrite ?andb_false_r; reflexivity.
Qed.

(** C5: when the three parameters pass the type check and both cutoffs are
    given, a cutoff that is [<= 0] makes construction raise the value error
    "Negative values not supported". *)
Theorem init_nonpositive_cutoff (sfreq l_freq h_freq kwargs : value) :
  type_check sfreq l_freq h_freq = true ->
  l_freq <> VNone ->
  h_freq <> VNone ->
  le l_freq (VInt 0) = Ok true \/ le h_freq (VInt 0) = Ok true ->
  __init__ sfreq l_freq h_freq kwargs =
    Err (ValueError "Negative values not supported").
Proof.
  intros Htc Hl Hh Hle. unfold type_check in Htc.
  apply andb_prop in Htc as [Htc Hh']. apply andb_prop in Htc as [Hs Hl'].
  apply is_not_None_iff in Hl, Hh.
  destruct (isinstance_optional_number _ Hl' Hl) as [x Hx].
  destruct (isinstance_optional_number _ Hh' Hh) as [y Hy].
  rewrite (init_both_given sfreq l_freq h_freq kwargs x y Hs Hx Hy).
  assert (Hneg : xgtb x (XFin 0 0) && xgtb y (XFin 0 0) = false).
  { destruct Hle as [Hle|Hle].
    - rewrite (le_numbers _ (VInt 0) _ (XFin 0 0) Hx eq_refl) in Hle.
      injection Hle as Hle. now rewrite (xleb_not_xgtb _ _ Hle).
    - rewrite (le_numbers _ (VInt 0) _ (XFin 0 0) Hy eq_refl) in Hle.
      injection Hle as Hle. rewrite (xleb_not_xgtb _ _ Hle).
      apply andb_false_r. }
  rewrite Hneg. reflexivity.
Qed.

(** The instance of C5 given with the claim: [l_freq=-5, h_freq=10]. *)
Lemma init_nonpositive_cutoff_witness :
  __init__ (VInt 100) (VInt (-5)) (VInt 10) VNone =
    Err (ValueError "Negative values not supported").
Proof.
  apply (init_nonpositive_cutoff (VInt 100) (VInt (-5)) (VInt 10) VNone).
  - reflexivity.
  - discriminate.
  - discriminate.
  - left. reflexivity.
Defined.

(** C6, as stated, fails: with [sfreq="100"], [l_freq=1], [h_freq=10] both
    cutoffs are given and positive and [l_freq <= h_freq], yet construction
    does not succeed; the type check on [sfreq] comes first and raises
    [TypeError]. *)
Lemma init_cutoff_order_counterexample :
  VInt 1 <> VNone /\ VInt 10 <> VNone /\
  gt (VInt 1) (VInt 0) = Ok true /\ gt (VInt 10) (VInt 0) = Ok true /\
  le (VInt 1) (VInt 10) = Ok true /\
  __init__ (VStr "100") (VInt 1) (VInt 10) VNone = Err TypeError.
Proof.
  repeat split; try discriminate; reflexivity.
Qed.

(** C6, amended: when the three parameters pass the type check ([sfreq]
    an [int] or [float], each cutoff an [int], [float] or [None]) and both
    cutoffs are given and positive, construction raises a value error
    exactly when [l_freq > h_freq] and succeeds exactly when
    [l_freq <= h_freq]. *)
Theorem init_cutoff_order (sfreq l_freq h_freq kwargs : value) :
  type_check sfreq l_freq h_freq = true ->
  l_freq <> VNone ->
  h_freq <> VNone ->
  gt l_freq (VInt 0) = Ok true ->
  gt h_freq (VInt 0) = Ok true ->
  ((exists msg, __init__ sfreq l_freq h_freq kwargs = Err (ValueError msg))
     <-> gt l_freq h_freq = Ok true) /\
  ((exists self, __init__ sfreq l_freq h_freq kwargs = Ok self)
     <-> le l_freq h_freq = Ok true).
Proof.
  intros Htc _ _ Hl Hh.
  assert (Hs : isinstance sfreq [c_int; c_float] = true).
  { unfold type_check in Htc. apply andb_prop in Htc as [Htc _].
    apply andb_prop in Htc as [Hs _]. exact Hs. }
  apply gt_Ok in Hl as (x & z & Hx & Hz & Hl).
  apply gt_Ok in Hh as (y & z' & Hy & Hz' & Hh).
  cbn in Hz, Hz'. injection Hz as <-. injection Hz' as <-.
  symmetry in Hl, Hh.
  rewrite (init_both_given sfreq l_freq h_freq kwargs x y Hs Hx Hy).
  rewrite Hl, Hh. cbn [andb negb].
  rewrite (gt_numbers _ _ _ _ Hx Hy), (le_numbers _ _ _ _ Hx Hy).
  rewrite (xgtb_xleb x y (xgtb_not_nan _ _ Hl) (xgtb_not_nan _ _ Hh)).
  destruct (xleb x y); cbn [negb]; split; split.
  - intros [msg H]. discriminate.
  - discriminate.
  - reflexivity.
  - eauto.
  - reflexivity.
  - eauto.
  - intros [self H]. discriminate.
  - discriminate.
Qed.

(** Instances of the amended C6: [l_freq=50, h_freq=10] raises a value
    error, and equal cutoffs are accepted. *)
Lemma init_cutoff_order_witness :
  (exists msg,
     __init__ (VInt 100) (VInt 50) (VInt 10) VNone = Err (ValueError msg)) /\
  (exists self,
     __init__ (VFloat (S754_finite false 1 1)) (VInt 2) (VInt 2) VNone
       = Ok self).
Proof.
  split.
  - apply (init_cutoff_order (VInt 100) (VInt 50) (VInt 10) VNone);
      try reflexivity; discriminate.
  - apply (init_cutoff_order (VFloat (S754_finite false 1 1))
             (VInt 2) (VInt 2) VNone);
      try reflexivity; discriminate.
Defined.

(** A construction that succeeds returns the object built from its
    arguments. *)
Lemma init_Ok_inv (sfreq0 l_freq0 h_freq0 kwargs0 : value) (self : Filter) :
  __init__ sfreq0 l_freq0 h_freq0 kwargs0 = Ok self ->
  self = mk_Filter sfreq0 l_freq0 h_freq0 kwargs0.
Proof.
  unfold __init__, BaseTransformer__init__.
  destruct (negb _); [discriminate|].
  destruct (is_not_None l_freq0 && is_not_None h_freq0).
  - destruct (gt l_freq0 (VInt 0)) as [lp|]; [|discriminate].
    destruct (gt h_freq0 (VInt 0)) as [hp|]; [|discriminate]. cbn [bind].
    destruct (negb _); [discriminate|].
    destruct (gt l_freq0 h_freq0) as [[ | ]|]; cbn [bind]; try discriminate.
    intros H. injection H as <-. reflexivity.
  - intros H. injection H as <-. reflexivity.
Qed.

(** The constructor on the instance dictionary is the constructor on the
    arguments, followed by the base-class constructor on the object that
    holds the four attributes. *)
Lemma Filter_init_factors (super__init__ : instance -> result instance)
    (self : instance) (sfreq0 l_freq0 h_freq0 kwargs0 : value) :
  Filter__init__ super__init__ self sfreq0 l_freq0 h_freq0 kwargs0 =
    match __init__ sfreq0 l_freq0 h_freq0 kwargs0 with
    | Ok _ =>
        super__init__ (store_arguments self sfreq0 l_freq0 h_freq0 kwargs0)
    | Err e => Err e
    end.
Proof.
  unfold Filter__init__, __init__, BaseTransformer__init__, store_arguments.
  destruct (negb _); [reflexivity|].
  destruct (is_not_None l_freq0 && is_not_None h_freq0); [|reflexivity].
  destruct (gt l_freq0 (VInt 0)) as [lp|]; [|reflexivity].
  destruct (gt h_freq0 (VInt 0)) as [hp|]; [|reflexivity]. cbn [bind].
  destruct (negb _); [reflexivity|].
  destruct (gt l_freq0 h_freq0) as [[ | ]|]; reflexivity.
Qed.

(** What lines 57-60 leave in the instance dictionary. *)
Lemma store_arguments_spec (self : instance)
    (sfreq0 l_freq0 h_freq0 kwargs0 : value) :
  let stored := store_arguments self sfreq0 l_freq0 h_freq0 kwargs0 in
  stored "sfreq" = Some sfreq0 /\
  stored "l_freq" = Some l_freq0 /\
  stored "h_freq" = Some h_freq0 /\
  stored "filter_kwargs" = Some kwargs0 /\
  forall name, ~ In name own_attributes -> stored name = self name.
Proof.
  cbn zeta. repeat split.
  intros name Hname. unfold store_arguments, setattr.
  destruct (String.eqb name "filter_kwargs") eqn:H4.
  { apply String.eqb_eq in H4. subst. exfalso. apply Hname. cbn. tauto. }
  destruct (String.eqb name "h_freq") eqn:H3.
  { apply String.eqb_eq in H3. subst. exfalso. apply Hname. cbn. tauto. }
  destruct (String.eqb name "l_freq") eqn:H2.
  { apply String.eqb_eq in H2. subst. exfalso. apply Hname. cbn. tauto. }
  destruct (String.eqb name "sfreq") eqn:H1.
  { apply String.eqb_eq in H1. subst. exfalso. apply Hname. cbn. tauto. }
  reflexivity.
Qed.

(** C7, as stated, fails: the constructor ends with the call of the
    base-class constructor, and whatever that one does to the object is an
    effect of construction.  With a base-class constructor that sets the
    fitted flag, [Filter(100, 1, 10)] succeeds on a fresh object and leaves
    an attribute [_is_fitted] that is none of the four arguments. *)
Lemma init_side_effects_counterexample :
  exists self',
    Filter__init__ base_sets_fitted_flag fresh (VInt 100) (VInt 1) (VInt 10)
      VNone = Ok self' /\
    fresh "_is_fitted" = None /\
    self' "_is_fitted" = Some (VBool false) /\
    ~ In "_is_fitted" own_attributes.
Proof.
  eexists. split; [reflexivity|]. repeat split.
  cbn. intros [H | [H | [H | [H | []]]]]; discriminate.
Qed.

(** C7, amended: whatever the base-class constructor is, a construction
    that succeeds has written the four arguments, unchanged, to the
    attributes [sfreq], [l_freq], [h_freq] and [filter_kwargs], has left
    every other attribute as it found it, and has then done what the
    base-class constructor does to that object and nothing more; when the
    base-class constructor leaves the four attributes alone, the object
    returned holds the four arguments. *)
Theorem init_stores_arguments
    (super__init__ : instance -> result instance) (self self' : instance)
    (sfreq0 l_freq0 h_freq0 kwargs0 : value) :
  Filter__init__ super__init__ self sfreq0 l_freq0 h_freq0 kwargs0
    = Ok self' ->
  let stored := store_arguments self sfreq0 l_freq0 h_freq0 kwargs0 in
  (stored "sfreq" = Some sfreq0 /\
   stored "l_freq" = Some l_freq0 /\
   stored "h_freq" = Some h_freq0 /\
   stored "filter_kwargs" = Some kwargs0 /\
   forall name, ~ In name own_attributes -> stored name = self name) /\
  super__init__ stored = Ok self' /\
  ((forall name, In name own_attributes -> self' name = stored name) ->
   self' "sfreq" = Some sfreq0 /\
   self' "l_freq" = Some l_freq0 /\
   self' "h_freq" = Some h_freq0 /\
   self' "filter_kwargs" = Some kwargs0).
Proof.
  intros H stored. rewrite Filter_init_factors in H.
  destruct (__init__ sfreq0 l_freq0 h_freq0 kwargs0) as [f|e];
    [|discriminate].
  pose proof (store_arguments_spec self sfreq0 l_freq0 h_freq0 kwargs0)
    as Hspec.
  cbn zeta in Hspec. fold stored in Hspec.
  split; [exact Hspec|]. split; [exact H|].
  intros Hkeep. destruct Hspec as (H1 & H2 & H3 & H4 & _).
  rewrite <- H1, <- H2, <- H3, <- H4.
  repeat split; apply Hkeep; cbn; tauto.
Qed.

(** The amended C7 at [Filter(100, 1, 10.0, {"method": "iir"})] on a fresh
    object, with the base-class constructor that sets the fitted flag. *)
Lemma init_stores_arguments_witness :
  let kw := VDict [(VStr "method", VStr "iir")] in
  let h := VFloat (S754_finite false 5 1) in
  exists self',
    Filter__init__ base_sets_fitted_flag fresh (VInt 100) (VInt 1) h kw
      = Ok self' /\
    self' "sfreq" = Some (VInt 100) /\ self' "l_freq" = Some (VInt 1) /\
    self' "h_freq" = Some h /\ self' "filter_kwargs" = Some kw.
Proof.
  intros kw h. eexists. split; [reflexivity|].
  apply (init_stores_arguments base_sets_fitted_flag fresh _
           (VInt 100) (VInt 1) h kw eq_refl).
  intros name Hname. cbn in Hname.
  destruct Hname as [<- | [<- | [<- | [<- | []]]]]; reflexivity.
Defined.

(** C10: when exactly one cutoff is given, construction depends on the type
    check alone: it raises [TypeError] when that fails and otherwise
    succeeds, whatever the sign of the cutoff given. *)
Theorem init_single_cutoff_unchecked (sfreq l_freq h_freq kwargs : value) :
  (l_freq = VNone /\ h_freq <> VNone) \/ (l_freq <> VNone /\ h_freq = VNone) ->
  __init__ sfreq l_freq h_freq kwargs =
    if type_check sfreq l_freq h_freq
    then Ok (mk_Filter sfreq l_freq h_freq kwargs)
    else Err TypeError.
Proof.
  intros H.
  assert (Hboth : is_not_None l_freq && is_not_None h_freq = false).
  { destruct H as [[-> _] | [_ ->]]; [reflexivity | apply andb_false_r]. }
  destruct (type_check sfreq l_freq h_freq) eqn:Htc.
  - apply init_one_absent; assumption.
  - apply init_type_error; assumption.
Qed.

(** The instance of C10 given with the claim: a numeric [sfreq],
    [l_freq=-5] and no [h_freq]. *)
Lemma init_single_cutoff_unchecked_witness :
  __init__ (VInt 100) (VInt (-5)) VNone VNone =
    Ok (mk_Filter (VInt 100) (VInt (-5)) VNone VNone).
Proof.
  apply (init_single_cutoff_unchecked (VInt 100) (VInt (-5)) VNone VNone).
  right. split; [discriminate | reflexivity].
Defined.

(** ** Properties of the transform *)

Section Transform.

Variables (self : Filter) (X : ndarray) (y : label).

(** When [**kwargs] expands, the transform is one call followed by the
    return of the (possibly transposed) answer. *)
Lemma transform_expanded (extra : list (string * value)) :
  expand_kwargs (filter_kwargs self) = Ok extra ->
  _transform self X y =
    Call_filter_data
      (mk_call (flip_if_2d X) (sfreq self) (l_freq self) (h_freq self) extra)
      (fun Xt => Return (flip_if_2d Xt)).
Proof.
  unfold _transform. intros ->. reflexivity.
Qed.

(** When it does not, the exception leaves the transform and the routine
    is never called. *)
Lemma transform_not_expanded (e : exn) :
  expand_kwargs (filter_kwargs self) = Err e ->
  _transform self X y = Raise e.
Proof.
  unfold _transform. intros ->. reflexivity.
Qed.

Lemma calls_transform_expanded {W : Type}
    (routine : W -> filter_data_call -> W * result ndarray) (w : W)
    (extra : list (string * value)) :
  expand_kwargs (filter_kwargs self) = Ok extra ->
  calls routine w (_transform self X y) =
    [mk_call (flip_if_2d X) (sfreq self) (l_freq self) (h_freq self) extra].
Proof.
  intros H. rewrite (transform_expanded extra H). cbn [calls].
  destruct (routine w _) as [w' [Xt|e]]; reflexivity.
Qed.

Lemma run_transform_expanded {W : Type}
    (routine : W -> filter_data_call -> W * result ndarray) (w w' : W)
    (extra : list (string * value)) (Xt : ndarray) :
  expand_kwargs (filter_kwargs self) = Ok extra ->
  routine w
    (mk_call (flip_if_2d X) (sfreq self) (l_freq self) (h_freq self) extra)
    = (w', Ok Xt) ->
  run routine w (_transform self X y) = (w', Ok (flip_if_2d Xt)).
Proof.
  intros H Hr. rewrite (transform_expanded extra H). cbn [run].
  rewrite Hr. reflexivity.
Qed.

End Transform.

Lemma flip_if_2d_2d (X : ndarray) (T C : nat) :
  shape X = [T; C]%nat ->
  flip_if_2d X = transpose X /\ shape (transpose X) = [C; T]%nat.
Proof.
  intros H. unfold flip_if_2d, ndim. cbn [transpose shape].
  rewrite H. split; reflexivity.
Qed.

Lemma flip_if_2d_3d (X : ndarray) (P C T : nat) :
  shape X = [P; C; T]%nat -> flip_if_2d X = X.
Proof.
  intros H. unfold flip_if_2d, ndim. rewrite H. reflexivity.
Qed.

(** The result of a run does not depend on the state the routine starts
    in, when its answers do not. *)
Lemma run_state_independent {W A : Type}
    (routine : W -> filter_data_call -> W * result ndarray) :
  (forall w w' c, snd (routine w c) = snd (routine w' c)) ->
  forall (p : prog A) (w w' : W),
    snd (run routine w p) = snd (run routine w' p).
Proof.
  intros Hdet p. induction p as [a | e | c k IH]; intros w w'.
  - reflexivity.
  - reflexivity.
  - cbn [run]. specialize (Hdet w w' c).
    destruct (routine w c) as [w1 r1], (routine w' c) as [w2 r2].
    cbn [snd] in Hdet. subst r2.
    destruct r1 as [Xt | e]; [apply IH | reflexivity].
Qed.

(** C1: the claim does not hold on the code.  Every Filter constructed
    with the default [filter_kwargs=None] raises [TypeError] at [**kwargs],
    on every input: the transform ends before the external routine is
    called, and no call is made. *)
Theorem transform_default_kwargs_raises (sfreq0 l_freq0 h_freq0 : value)
    (self : Filter) (X : ndarray) (y : label) :
  __init__ sfreq0 l_freq0 h_freq0 filter_kwargs_default = Ok self ->
  _transform self X y = Raise TypeError /\
  forall (W : Type) (routine : W -> filter_data_call -> W * result ndarray)
         (w : W),
    calls routine w (_transform self X y) = [] /\
    run routine w (_transform self X y) = (w, Err TypeError).
Proof.
  intros Hinit. apply init_Ok_inv in Hinit. subst self.
  assert (H : _transform
                (mk_Filter sfreq0 l_freq0 h_freq0 filter_kwargs_default) X y
              = Raise TypeError).
  { apply transform_not_expanded. reflexivity. }
  split; [exact H|]. intros W routine w. rewrite H. split; reflexivity.
Qed.

(** C1 at [Filter(sfreq=100, l_freq=1, h_freq=10)] and a series of shape
    (3, 2). *)
Lemma transform_default_kwargs_raises_witness :
  __init__ (VInt 100) (VInt 1) (VInt 10) filter_kwargs_default =
    Ok (mk_Filter (VInt 100) (VInt 1) (VInt 10) VNone) /\
  _transform (mk_Filter (VInt 100) (VInt 1) (VInt 10) VNone) X_series
    y_default = Raise TypeError.
Proof.
  split; [reflexivity|].
  apply (transform_default_kwargs_raises (VInt 100) (VInt 1) (VInt 10)
           (mk_Filter (VInt 100) (VInt 1) (VInt 10) VNone) X_series
           y_default).
  reflexivity.
Defined.

(** C2, as stated, fails: the Filter constructed with
    [filter_kwargs={"sfreq": 200}] hands nothing to the routine on the
    series of shape (3, 2); the keyword [sfreq] is given twice at the call
    and [TypeError] is raised while the arguments are put together. *)
Lemma transform_2d_counterexample :
  __init__ (VInt 100) (VInt 1) (VInt 10) (VDict [(VStr "sfreq", VInt 200)])
    = Ok (mk_Filter (VInt 100) (VInt 1) (VInt 10)
            (VDict [(VStr "sfreq", VInt 200)])) /\
  shape X_series = [3; 2]%nat /\
  _transform (mk_Filter (VInt 100) (VInt 1) (VInt 10)
                (VDict [(VStr "sfreq", VInt 200)])) X_series y_default
    = Raise TypeError.
Proof.
  repeat split.
Qed.

(** C2, amended: for a Filter whose [filter_kwargs] expands to named
    arguments, and an input of shape (T, C), the transform makes one call,
    on the transposed array of shape (C, T) with the stored [sfreq],
    [l_freq], [h_freq] and the expanded items; when the routine answers with
    an array of that shape, the transform returns its transpose, of shape
    (T, C). *)
Theorem transform_2d_roundtrip (self : Filter) (X : ndarray) (y : label)
    (T C : nat) (extra : list (string * value)) :
  expand_kwargs (filter_kwargs self) = Ok extra ->
  shape X = [T; C]%nat ->
  let c := mk_call (transpose X) (sfreq self) (l_freq self) (h_freq self)
             extra in
  shape (call_data c) = [C; T]%nat /\
  forall (W : Type) (routine : W -> filter_data_call -> W * result ndarray)
         (w : W),
    calls routine w (_transform self X y) = [c] /\
    forall (w' : W) (Xt : ndarray),
      routine w c = (w', Ok Xt) ->
      shape Xt = shape (call_data c) ->
      run routine w (_transform self X y) = (w', Ok (transpose Xt)) /\
      shape (transpose Xt) = [T; C]%nat.
Proof.
  intros Hkw HX c. destruct (flip_if_2d_2d X T C HX) as [HdX HsX].
  split; [exact HsX|]. intros W routine w. split.
  - rewrite (calls_transform_expanded self X y routine w extra Hkw).
    rewrite HdX. reflexivity.
  - intros w' Xt Hr HXt. cbn [call_data c] in HXt. rewrite HsX in HXt.
    destruct (flip_if_2d_2d Xt C T HXt) as [HdXt HsXt].
    split; [|exact HsXt].
    rewrite <- HdXt.
    apply (run_transform_expanded self X y routine w w' extra Xt Hkw).
    rewrite HdX. exact Hr.
Qed.

(** The amended C2 at [Filter(100, 1, 10, {"method": "iir"})], the series
    of shape (3, 2) and the routine that answers with its input. *)
Lemma transform_2d_roundtrip_witness :
  let self := mk_Filter (VInt 100) (VInt 1) (VInt 10)
                (VDict [(VStr "method", VStr "iir")]) in
  let c := mk_call (transpose X_series) (VInt 100) (VInt 1) (VInt 10)
             [("method", VStr "iir")] in
  calls counting_identity 0%nat (_transform self X_series y_default) = [c] /\
  run counting_identity 0%nat (_transform self X_series y_default)
    = (1%nat, Ok (transpose (transpose X_series))) /\
  shape (transpose (transpose X_series)) = [3; 2]%nat.
Proof.
  intros self c.
  destruct (transform_2d_roundtrip self X_series y_default 3 2
              [("method", VStr "iir")] eq_refl eq_refl) as [_ H].
  destruct (H nat counting_identity 0%nat) as [Hcalls Hrun].
  split; [exact Hcalls|].
  exact (Hrun 1%nat (transpose X_series) eq_refl eq_refl).
Defined.

(** C3, as stated, fails: the Filter constructed with
    [filter_kwargs={"l_freq": 5}] passes nothing to the routine on the
    panel of shape (2, 2, 3); the keyword [l_freq] is given twice at the
    call and [TypeError] is raised while the arguments are put together. *)
Lemma transform_3d_counterexample :
  __init__ (VInt 100) (VInt 1) (VInt 10) (VDict [(VStr "l_freq", VInt 5)])
    = Ok (mk_Filter (VInt 100) (VInt 1) (VInt 10)
            (VDict [(VStr "l_freq", VInt 5)])) /\
  shape X_panel = [2; 2; 3]%nat /\
  _transform (mk_Filter (VInt 100) (VInt 1) (VInt 10)
                (VDict [(VStr "l_freq", VInt 5)])) X_panel y_default
    = Raise TypeError.
Proof.
  repeat split.
Qed.

(** C3, amended: for a Filter whose [filter_kwargs] expands to named
    arguments, and an input of shape (P, C, T), the transform makes one
    call, on [X] itself; when the routine answers with an array of the shape
    of [X], the transform returns that array as it is, of shape
    (P, C, T). *)
Theorem transform_3d_passthrough (self : Filter) (X : ndarray) (y : label)
    (P C T : nat) (extra : list (string * value)) :
  expand_kwargs (filter_kwargs self) = Ok extra ->
  shape X = [P; C; T]%nat ->
  let c := mk_call X (sfreq self) (l_freq self) (h_freq self) extra in
  forall (W : Type) (routine : W -> filter_data_call -> W * result ndarray)
         (w : W),
    calls routine w (_transform self X y) = [c] /\
    forall (w' : W) (Xt : ndarray),
      routine w c = (w', Ok Xt) ->
      shape Xt = shape X ->
      run routine w (_transform self X y) = (w', Ok Xt) /\
      shape Xt = [P; C; T]%nat.
Proof.
  intros Hkw HX c W routine w. pose proof (flip_if_2d_3d X P C T HX) as HdX.
  split.
  - rewrite (calls_transform_expanded self X y routine w extra Hkw).
    rewrite HdX. reflexivity.
  - intros w' Xt Hr HXt. rewrite HX in HXt. split; [|exact HXt].
    unfold c in Hr. rewrite <- HdX in Hr.
    pose proof (run_transform_expanded self X y routine w w' extra Xt Hkw Hr)
      as Hrun.
    rewrite (flip_if_2d_3d Xt P C T HXt) in Hrun. exact Hrun.
Qed.

(** The amended C3 at [Filter(100, 1, 10, {})], the panel of shape
    (2, 2, 3) and the routine that answers with its input. *)
Lemma transform_3d_passthrough_witness :
  let self := mk_Filter (VInt 100) (VInt 1) (VInt 10) (VDict []) in
  calls counting_identity 0%nat (_transform self X_panel y_default)
    = [mk_call X_panel (VInt 100) (VInt 1) (VInt 10) []] /\
  run counting_identity 0%nat (_transform self X_panel y_default)
    = (1%nat, Ok X_panel) /\
  shape X_panel = [2; 2; 3]%nat.
Proof.
  intros self.
  destruct (transform_3d_passthrough self X_panel y_default 2 2 3 []
              eq_refl eq_refl nat counting_identity 0%nat) as [Hcalls Hrun].
  split; [exact Hcalls|].
  exact (Hrun 1%nat X_panel eq_refl eq_refl).
Defined.

(** C8: when the answer of the external routine is a function of the call
    alone, two invocations of the transform on the same Filter and the same
    input, one after the other, have the same outcome. *)
Theorem transform_deterministic (W : Type)
    (routine : W -> filter_data_call -> W * result ndarray)
    (self : Filter) (X : ndarray) (y : label) (w : W) :
  (forall w1 w2 c, snd (routine w1 c) = snd (routine w2 c)) ->
  let first := run routine w (_transform self X y) in
  let second := run routine (fst first) (_transform self X y) in
  snd first = snd second.
Proof.
  intros Hdet first second.
  apply (run_state_independent routine Hdet).
Qed.

(** C8 at the routine that counts its calls: the second invocation starts
    from another count and returns the same array. *)
Lemma transform_deterministic_witness :
  let self := mk_Filter (VInt 100) (VInt 1) (VInt 10) (VDict []) in
  let first := run counting_identity 0%nat
                 (_transform self X_series y_default) in
  let second := run counting_identity (fst first)
                  (_transform self X_series y_default) in
  fst first = 1%nat /\ fst second = 2%nat /\ snd first = snd second.
Proof.
  intros self first second.
  split; [reflexivity|]. split; [reflexivity|].
  apply (transform_deterministic nat counting_identity self X_series
           y_default 0%nat).
  reflexivity.
Defined.

(** C9: the transform does not read [y]: for any two values of [y] it is
    the same computation, hence has the same calls and the same outcome
    against every routine.  The class declares ["y_inner_mtype": "None"]. *)
Theorem transform_ignores_y :
  (forall (self : Filter) (X : ndarray) (y1 y2 : label),
     _transform self X y1 = _transform self X y2) /\
  In ("y_inner_mtype", TStr "None") _tags.
Proof.
  split.
  - intros self X y1 y2. reflexivity.
  - cbn. tauto.
Qed.

(** ** Further properties of the constructor *)

Lemma is_not_None_false (v : value) : is_not_None v = false -> v = VNone.
Proof. destruct v; cbn; intros H; try discriminate; reflexivity. Qed.

Lemma type_check_parts (sfreq l_freq h_freq : value) :
  type_check sfreq l_freq h_freq = true ->
  isinstance sfreq [c_int; c_float] = true /\
  isinstance l_freq [c_int; c_float; c_NoneType] = true /\
  isinstance h_freq [c_int; c_float; c_NoneType] = true.
Proof.
  unfold type_check. intros H.
  apply andb_prop in H as [H Hh]. apply andb_prop in H as [Hs Hl]. auto.
Qed.

(** Two cutoffs that passed the type check and are given are numbers. *)
Lemma checked_cutoffs_numbers (sfreq l_freq h_freq : value) :
  type_check sfreq l_freq h_freq = true ->
  is_not_None l_freq && is_not_None h_freq = true ->
  isinstance sfreq [c_int; c_float] = true /\
  exists x y, number l_freq = Some x /\ number h_freq = Some y.
Proof.
  intros Htc Hb. apply type_check_parts in Htc as (Hs & Hl & Hh).
  apply andb_prop in Hb as [Hln Hhn].
  destruct (isinstance_optional_number _ Hl Hln) as [x Hx].
  destruct (isinstance_optional_number _ Hh Hhn) as [y Hy].
  eauto.
Qed.

Lemma gt_zero_number (v : value) (x : xreal) :
  number v = Some x -> gt v (VInt 0) = Ok (xgtb x (XFin 0 0)).
Proof. intros H. exact (gt_numbers v (VInt 0) x (XFin 0 0) H eq_refl). Qed.

(** What a successful construction tells about the arguments. *)
Lemma init_Ok_conditions (sfreq l_freq h_freq kwargs : value)
    (self : Filter) :
  __init__ sfreq l_freq h_freq kwargs = Ok self ->
  type_check sfreq l_freq h_freq = true /\
  (l_freq = VNone \/ h_freq = VNone \/
   (gt l_freq (VInt 0) = Ok true /\ gt h_freq (VInt 0) = Ok true /\
    le l_freq h_freq = Ok true)).
Proof.
  intros H. destruct (type_check sfreq l_freq h_freq) eqn:Htc.
  2:{ rewrite (init_type_error _ _ _ _ Htc) in H. discriminate. }
  split; [reflexivity|].
  destruct (is_not_None l_freq && is_not_None h_freq) eqn:Hb.
  - destruct (checked_cutoffs_numbers _ _ _ Htc Hb) as (Hs & x & y & Hx & Hy).
    rewrite (init_both_given sfreq l_freq h_freq kwargs x y Hs Hx Hy) in H.
    destruct (xgtb x (XFin 0 0)) eqn:Hxp; [|discriminate].
    destruct (xgtb y (XFin 0 0)) eqn:Hyp; [|discriminate].
    cbn [andb negb] in H.
    destruct (xgtb x y) eqn:Hxy; [discriminate|].
    right. right.
    rewrite (gt_zero_number _ _ Hx), (gt_zero_number _ _ Hy),
      (le_numbers _ _ _ _ Hx Hy), Hxp, Hyp.
    repeat split.
    rewrite (xgtb_xleb x y (xgtb_not_nan _ _ Hxp) (xgtb_not_nan _ _ Hyp))
      in Hxy.
    destruct (xleb x y); [reflexivity | discriminate].
  - apply andb_false_iff in Hb as [Hb|Hb]; apply is_not_None_false in Hb;
      auto.
Qed.

(** X1: construction succeeds exactly when the three parameters pass the
    type check and either a cutoff is absent or both are positive with
    [l_freq <= h_freq]; it then returns the object built from the
    arguments. *)
Theorem init_succeeds_iff (sfreq l_freq h_freq kwargs : value) :
  __init__ sfreq l_freq h_freq kwargs
    = Ok (mk_Filter sfreq l_freq h_freq kwargs) <->
  type_check sfreq l_freq h_freq = true /\
  (l_freq = VNone \/ h_freq = VNone \/
   (gt l_freq (VInt 0) = Ok true /\ gt h_freq (VInt 0) = Ok true /\
    le l_freq h_freq = Ok true)).
Proof.
  split; [apply init_Ok_conditions|].
  intros [Htc [Hl | [Hh | (Hlp & Hhp & Hle)]]].
  - apply init_one_absent; [exact Htc | subst; reflexivity].
  - apply init_one_absent; [exact Htc | subst; apply andb_false_r].
  - apply type_check_parts in Htc as (Hs & _ & _).
    apply le_Ok in Hle as (x & y & Hx & Hy & Hle).
    rewrite (gt_zero_number _ _ Hx) in Hlp. injection Hlp as Hlp.
    rewrite (gt_zero_number _ _ Hy) in Hhp. injection Hhp as Hhp.
    rewrite (init_both_given sfreq l_freq h_freq kwargs x y Hs Hx Hy).
    rewrite Hlp, Hhp. cbn [andb negb].
    rewrite (xgtb_xleb x y (xgtb_not_nan _ _ Hlp) (xgtb_not_nan _ _ Hhp)).
    rewrite <- Hle. reflexivity.
Qed.

(** X2: the value errors of the constructor, with their messages.  The
    positivity test comes first: a cutoff that is not above zero gives
    "Negative values not supported" also when [l_freq > h_freq]. *)
Theorem init_value_error_iff (sfreq l_freq h_freq kwargs : value)
    (msg : string) :
  __init__ sfreq l_freq h_freq kwargs = Err (ValueError msg) <->
  type_check sfreq l_freq h_freq = true /\
  l_freq <> VNone /\ h_freq <> VNone /\
  ((msg = "Negative values not supported" /\
    (gt l_freq (VInt 0) <> Ok true \/ gt h_freq (VInt 0) <> Ok true)) \/
   (msg = "High frequency must be higher than low frequency" /\
    gt l_freq (VInt 0) = Ok true /\ gt h_freq (VInt 0) = Ok true /\
    gt l_freq h_freq = Ok true)).
Proof.
  split.
  - intros H. destruct (type_check sfreq l_freq h_freq) eqn:Htc.
    2:{ rewrite (init_type_error _ _ _ _ Htc) in H. discriminate. }
    destruct (is_not_None l_freq && is_not_None h_freq) eqn:Hb.
    2:{ rewrite (init_one_absent _ _ _ _ Htc Hb) in H. discriminate. }
    destruct (checked_cutoffs_numbers _ _ _ Htc Hb) as (Hs & x & y & Hx & Hy).
    apply andb_prop in Hb as [Hln Hhn]. apply is_not_None_iff in Hln, Hhn.
    split; [reflexivity|]. split; [exact Hln|]. split; [exact Hhn|].
    rewrite (init_both_given sfreq l_freq h_freq kwargs x y Hs Hx Hy) in H.
    rewrite (gt_zero_number _ _ Hx), (gt_zero_number _ _ Hy),
      (gt_numbers _ _ _ _ Hx Hy).
    destruct (xgtb x (XFin 0 0)), (xgtb y (XFin 0 0)); cbn [andb negb] in H;
      try (injection H as <-; left; split; [reflexivity|];
           solve [left; discriminate | right; discriminate]).
    destruct (xgtb x y); [|discriminate].
    injection H as <-. right. auto.
  - intros (Htc & Hln & Hhn & Hcase).
    apply is_not_None_iff in Hln, Hhn.
    assert (Hb : is_not_None l_freq && is_not_None h_freq = true)
      by (rewrite Hln, Hhn; reflexivity).
    destruct (checked_cutoffs_numbers _ _ _ Htc Hb) as (Hs & x & y & Hx & Hy).
    rewrite (init_both_given sfreq l_freq h_freq kwargs x y Hs Hx Hy).
    rewrite (gt_zero_number _ _ Hx), (gt_zero_number _ _ Hy),
      (gt_numbers _ _ _ _ Hx Hy) in Hcase.
    destruct Hcase as [[-> Hneg] | (-> & Hlp & Hhp & Hxy)].
    + destruct (xgtb x (XFin 0 0)), (xgtb y (XFin 0 0)); cbn [andb negb];
        try reflexivity.
      destruct Hneg as [Hneg|Hneg]; exfalso; apply Hneg; reflexivity.
    + injection Hlp as ->. injection Hhp as ->. injection Hxy as ->.
      reflexivity.
Qed.

(** X3: a NaN is not above zero, so with both cutoffs given a NaN cutoff
    is rejected with the value error of the positivity test. *)
Theorem init_nan_cutoff_rejected (sfreq l_freq h_freq kwargs : value) :
  type_check sfreq l_freq h_freq = true ->
  l_freq <> VNone ->
  h_freq <> VNone ->
  l_freq = VFloat S754_nan \/ h_freq = VFloat S754_nan ->
  __init__ sfreq l_freq h_freq kwargs =
    Err (ValueError "Negative values not supported").
Proof.
  intros Htc Hln Hhn Hnan. apply is_not_None_iff in Hln, Hhn.
  assert (Hb : is_not_None l_freq && is_not_None h_freq = true)
    by (rewrite Hln, Hhn; reflexivity).
  destruct (checked_cutoffs_numbers _ _ _ Htc Hb) as (Hs & x & y & Hx & Hy).
  rewrite (init_both_given sfreq l_freq h_freq kwargs x y Hs Hx Hy).
  destruct Hnan as [-> | ->].
  - cbn in Hx. injection Hx as <-. reflexivity.
  - cbn in Hy. injection Hy as <-. cbn [xgtb xcompare].
    rewrite andb_false_r. reflexivity.
Qed.

Lemma init_nan_cutoff_rejected_witness :
  __init__ (VFloat (S754_finite false 1 8)) (VInt 1) (VFloat S754_nan)
    (VDict []) = Err (ValueError "Negative values not supported").
Proof.
  apply (init_nan_cutoff_rejected (VFloat (S754_finite false 1 8)) (VInt 1)
           (VFloat S754_nan) (VDict [])).
  - reflexivity.
  - discriminate.
  - discriminate.
  - right. reflexivity.
Defined.

(** The exception of the constructor depends on [sfreq] through its type
    test only, and not on [filter_kwargs]. *)
Lemma init_raised_congruence (s1 s2 l_freq h_freq kw1 kw2 : value) :
  isinstance s1 [c_int; c_float] = isinstance s2 [c_int; c_float] ->
  raised (__init__ s1 l_freq h_freq kw1) =
  raised (__init__ s2 l_freq h_freq kw2).
Proof.
  unfold __init__, BaseTransformer__init__. intros ->.
  destruct (isinstance s2 _), (isinstance l_freq _), (isinstance h_freq _);
    cbn [andb negb]; try reflexivity.
  destruct (is_not_None l_freq && is_not_None h_freq); [|reflexivity].
  destruct (gt l_freq (VInt 0)) as [lp|]; [|reflexivity].
  destruct (gt h_freq (VInt 0)) as [hp|]; [|reflexivity].
  cbn [bind]. destruct (negb (lp && hp)); [reflexivity|].
  destruct (gt l_freq h_freq) as [[ | ]|]; reflexivity.
Qed.

(** X4: the value of [sfreq] is never inspected: any two sampling
    frequencies that are [int] or [float] (zero, negative, NaN or infinite
    ones included) give the same exception or both succeed, whatever the
    cutoffs. *)
Theorem init_ignores_sfreq_value (s1 s2 l_freq h_freq kwargs : value) :
  isinstance s1 [c_int; c_float] = true ->
  isinstance s2 [c_int; c_float] = true ->
  raised (__init__ s1 l_freq h_freq kwargs) =
  raised (__init__ s2 l_freq h_freq kwargs).
Proof.
  intros H1 H2. apply init_raised_congruence. rewrite H1, H2. reflexivity.
Qed.

(** X4 at a sampling frequency of 100 and one of minus infinity, with the
    cutoffs 1 and 10: both constructions succeed. *)
Lemma init_ignores_sfreq_value_witness :
  raised (__init__ (VInt 100) (VInt 1) (VInt 10) VNone) = None /\
  raised (__init__ (VFloat (S754_infinity true)) (VInt 1) (VInt 10) VNone)
    = None.
Proof.
  split; [reflexivity|].
  rewrite <- (init_ignores_sfreq_value (VInt 100)
                (VFloat (S754_infinity true)) (VInt 1) (VInt 10) VNone
                eq_refl eq_refl).
  reflexivity.
Defined.

(** X5: the constructor never inspects [filter_kwargs]: whether it raises,
    and what, is the same for every value of that argument, a mapping or
    not. *)
Theorem init_ignores_filter_kwargs (sfreq l_freq h_freq kw1 kw2 : value) :
  raised (__init__ sfreq l_freq h_freq kw1) =
  raised (__init__ sfreq l_freq h_freq kw2).
Proof.
  apply init_raised_congruence. reflexivity.
Qed.

(** ** Further properties of the transform *)

Lemma keyword_items_Err (items : list (value * value)) (e : exn) :
  keyword_items items = Err e -> e = TypeError.
Proof.
  induction items as [|[k v] rest IH]; cbn [keyword_items]; [discriminate|].
  destruct k; try (intros H; injection H as <-; reflexivity).
  destruct (existsb _ _); [intros H; injection H as <-; reflexivity|].
  destruct (keyword_items rest) as [rest'|e']; cbn [bind].
  - discriminate.
  - intros H. injection H as <-. apply IH. reflexivity.
Qed.

Lemma expand_kwargs_Err (kwargs : value) (e : exn) :
  expand_kwargs kwargs = Err e -> e = TypeError.
Proof.
  destruct kwargs; cbn; try (intros H; injection H as <-; reflexivity).
  apply keyword_items_Err.
Qed.

Lemma explicit_keyword_iff (k : string) :
  existsb (String.eqb k) explicit_keywords = true <-> In k explicit_keywords.
Proof.
  rewrite existsb_exists. split.
  - intros (k' & Hin & Heq). apply String.eqb_eq in Heq. subst. exact Hin.
  - intros Hin. exists k. split; [exact Hin | apply String.eqb_refl].
Qed.

Lemma keyword_items_Ok_iff (items : list (value * value))
    (extra : list (string * value)) :
  keyword_items items = Ok extra <->
  items = dict_of_keywords extra /\
  Forall (fun kv => ~ In (fst kv) explicit_keywords) extra.
Proof.
  revert extra. induction items as [|[k v] rest IH]; intros extra.
  - cbn. split.
    + intros H. injection H as <-. split; [reflexivity | constructor].
    + intros [H _]. destruct extra; [reflexivity | discriminate].
  - cbn [keyword_items]. split.
    + destruct k; try discriminate.
      destruct (existsb _ _) eqn:Hex; [discriminate|].
      destruct (keyword_items rest) as [rest'|e] eqn:Hrest; cbn [bind];
        [|discriminate].
      intros H. injection H as <-.
      destruct (proj1 (IH rest') eq_refl) as [-> Hall].
      split; [reflexivity|]. constructor; [|exact Hall].
      cbn [fst]. intros Hin. apply explicit_keyword_iff in Hin. congruence.
    + intros [Hitems Hall]. destruct extra as [|[k' v'] extra'];
        [discriminate|].
      cbn in Hitems. injection Hitems as -> -> ->.
      inversion Hall as [|? ? Hk Hall']; subst. cbn [fst] in Hk.
      destruct (existsb _ _) eqn:Hex.
      { exfalso. apply Hk. apply explicit_keyword_iff. exact Hex. }
      rewrite (proj2 (IH extra') (conj eq_refl Hall')). reflexivity.
Qed.

(** X6: what [**kwargs] contributes to the call.  The expansion succeeds
    exactly when [filter_kwargs] is a mapping whose keys are strings other
    than [sfreq], [l_freq] and [h_freq]; the items then reach the routine
    with their values unchanged and in the order of the mapping, so the
    stored [sfreq], [l_freq] and [h_freq] cannot be overridden through
    [filter_kwargs]. *)
Theorem expand_kwargs_Ok_iff (kwargs : value)
    (extra : list (string * value)) :
  expand_kwargs kwargs = Ok extra <->
  kwargs = VDict (dict_of_keywords extra) /\
  Forall (fun kv => ~ In (fst kv) explicit_keywords) extra.
Proof.
  destruct kwargs as [ | b | z | f | s | items]; cbn [expand_kwargs];
    try (split; [discriminate | intros [H _]; discriminate]).
  rewrite keyword_items_Ok_iff. split.
  - intros [-> H]. split; [reflexivity | exact H].
  - intros [H Hall]. injection H as ->. split; [reflexivity | exact Hall].
Qed.

(** X7: on every Filter and input the transform either raises
    [TypeError] at the expansion of [**kwargs], without calling the routine,
    or is one call followed by the return of the answer; against any routine
    it makes at most one call, and it never returns an array that did not
    come from the routine. *)
Theorem transform_one_call_or_type_error (self : Filter) (X : ndarray)
    (y : label) :
  ((expand_kwargs (filter_kwargs self) = Err TypeError /\
    _transform self X y = Raise TypeError) \/
   (exists extra,
      expand_kwargs (filter_kwargs self) = Ok extra /\
      _transform self X y =
        Call_filter_data
          (mk_call (flip_if_2d X) (sfreq self) (l_freq self) (h_freq self)
             extra)
          (fun Xt => Return (flip_if_2d Xt)))) /\
  forall (W : Type) (routine : W -> filter_data_call -> W * result ndarray)
         (w : W),
    (List.length (calls routine w (_transform self X y)) <= 1)%nat /\
    forall (w' : W) (out : ndarray),
      run routine w (_transform self X y) = (w', Ok out) ->
      exists c Xt, calls routine w (_transform self X y) = [c] /\
                   routine w c = (w', Ok Xt) /\ out = flip_if_2d Xt.
Proof.
  destruct (expand_kwargs (filter_kwargs self)) as [extra|e] eqn:Hkw.
  - pose proof (transform_expanded self X y extra Hkw) as Hp. split.
    + right. exists extra. split; [reflexivity | exact Hp].
    + intros W routine w. rewrite Hp. cbn [calls run].
      destruct (routine w _) as [w1 [Xt|e]] eqn:Hr; cbn [List.length].
      * split; [lia|]. intros w' out H. injection H as <- <-.
        eexists. exists Xt. repeat split. exact Hr.
      * split; [lia|]. intros w' out H. discriminate.
  - pose proof (expand_kwargs_Err _ _ Hkw) as ->.
    pose proof (transform_not_expanded self X y TypeError Hkw) as Hp. split.
    + left. split; [reflexivity | exact Hp].
    + intros W routine w. rewrite Hp. cbn [calls run List.length].
      split; [lia|]. intros w' out H. discriminate.
Qed.

(** X8: an exception raised by the routine leaves the transform as it is:
    the call is made once, not repeated, and the exception is the outcome. *)
Theorem transform_routine_error_propagates (self : Filter) (X : ndarray)
    (y : label) (extra : list (string * value)) (W : Type)
    (routine : W -> filter_data_call -> W * result ndarray) (w w' : W)
    (e : exn) :
  expand_kwargs (filter_kwargs self) = Ok extra ->
  routine w
    (mk_call (flip_if_2d X) (sfreq self) (l_freq self) (h_freq self) extra)
    = (w', Err e) ->
  run routine w (_transform self X y) = (w', Err e) /\
  calls routine w (_transform self X y) =
    [mk_call (flip_if_2d X) (sfreq self) (l_freq self) (h_freq self) extra].
Proof.
  intros Hkw Hr. split.
  - rewrite (transform_expanded self X y extra Hkw). cbn [run].
    rewrite Hr. reflexivity.
  - apply calls_transform_expanded. exact Hkw.
Qed.

(** A routine that rejects every call with a value error. *)
Lemma transform_routine_error_propagates_witness :
  let self := mk_Filter (VInt 100) (VInt 60) (VInt 70) (VDict []) in
  let routine := fun (n : nat) (_ : filter_data_call) =>
    (S n, @Err ndarray (ValueError "h_freq above Nyquist")) in
  run routine 0%nat (_transform self X_series y_default)
    = (1%nat, Err (ValueError "h_freq above Nyquist")).
Proof.
  intros self routine.
  apply (transform_routine_error_propagates self X_series y_default []
           nat routine 0%nat 1%nat (ValueError "h_freq above Nyquist")
           eq_refl eq_refl).
Defined.

(** X9: only arrays with exactly two axes are transposed.  An input with
    any other number of axes (one, three, four, ...) is handed to the
    routine as it is, and an answer with any other number of axes is
    returned as it is. *)
Theorem transform_other_rank_unchanged (self : Filter) (X : ndarray)
    (y : label) (extra : list (string * value)) :
  expand_kwargs (filter_kwargs self) = Ok extra ->
  ndim X <> 2%nat ->
  let c := mk_call X (sfreq self) (l_freq self) (h_freq self) extra in
  forall (W : Type) (routine : W -> filter_data_call -> W * result ndarray)
         (w : W),
    calls routine w (_transform self X y) = [c] /\
    forall (w' : W) (Xt : ndarray),
      routine w c = (w', Ok Xt) ->
      ndim Xt <> 2%nat ->
      run routine w (_transform self X y) = (w', Ok Xt).
Proof.
  intros Hkw HX c W routine w.
  assert (HfX : flip_if_2d X = X).
  { unfold flip_if_2d. apply Nat.eqb_neq in HX. rewrite HX. reflexivity. }
  split.
  - rewrite (calls_transform_expanded self X y routine w extra Hkw).
    rewrite HfX. reflexivity.
  - intros w' Xt Hr HXt. unfold c in Hr. rewrite <- HfX in Hr.
    rewrite (run_transform_expanded self X y routine w w' extra Xt Hkw Hr).
    unfold flip_if_2d. apply Nat.eqb_neq in HXt. rewrite HXt. reflexivity.
Qed.

(** X9 at a one-dimensional input of five samples. *)
Lemma transform_other_rank_unchanged_witness :
  let self := mk_Filter (VInt 100) (VInt 1) (VInt 10) (VDict []) in
  let X1 := mk_ndarray [5%nat] (fun _ => SInt 7) in
  calls counting_identity 0%nat (_transform self X1 y_default)
    = [mk_call X1 (VInt 100) (VInt 1) (VInt 10) []] /\
  run counting_identity 0%nat (_transform self X1 y_default)
    = (1%nat, Ok X1).
Proof.
  intros self X1.
  assert (H1 : ndim X1 <> 2%nat) by (cbn; lia).
  destruct (transform_other_rank_unchanged self X1 y_default [] eq_refl H1
              nat counting_identity 0%nat) as [Hcalls Hrun].
  split; [exact Hcalls|].
  exact (Hrun 1%nat X1 eq_refl H1).
Defined.

Lemma transpose_2d_shape (A : ndarray) :
  ndim A = 2%nat -> ndim (transpose A) = 2%nat.
Proof.
  unfold ndim. cbn [transpose shape]. rewrite length_rev. trivial.
Qed.

Lemma flip_if_2d_ndim (A : ndarray) : ndim (flip_if_2d A) = ndim A.
Proof.
  unfold flip_if_2d. destruct (Nat.eqb (ndim A) 2) eqn:H; [|reflexivity].
  unfold ndim. cbn [transpose shape]. apply length_rev.
Qed.

(** Applying the step twice gives back the shape and every element. *)
Lemma flip_if_2d_twice (A : ndarray) :
  shape (flip_if_2d (flip_if_2d A)) = shape A /\
  forall idx, item (flip_if_2d (flip_if_2d A)) idx = item A idx.
Proof.
  destruct (Nat.eqb (ndim A) 2) eqn:H.
  - assert (H1 : flip_if_2d A = transpose A)
      by (unfold flip_if_2d; rewrite H; reflexivity).
    assert (H2 : flip_if_2d (transpose A) = transpose (transpose A)).
    { unfold flip_if_2d. apply Nat.eqb_eq in H.
      rewrite (transpose_2d_shape A H). reflexivity. }
    rewrite H1, H2. cbn [transpose shape item]. split.
    + apply rev_involutive.
    + intros idx. rewrite rev_involutive. reflexivity.
  - assert (H1 : flip_if_2d A = A)
      by (unfold flip_if_2d; rewrite H; reflexivity).
    rewrite H1, H1. split; reflexivity.
Qed.

(** X10: the axis swap, element by element.  For an input of shape (T, C)
    the array handed to the routine holds at (channel, time) what [X] holds
    at (time, channel), and for a two-axis answer the output holds at
    (time, channel) what the answer holds at (channel, time). *)
Theorem transform_2d_elements (self : Filter) (X : ndarray) (y : label)
    (T C : nat) (extra : list (string * value)) (W : Type)
    (routine : W -> filter_data_call -> W * result ndarray) (w w' : W)
    (Xt : ndarray) :
  expand_kwargs (filter_kwargs self) = Ok extra ->
  shape X = [T; C]%nat ->
  routine w
    (mk_call (transpose X) (sfreq self) (l_freq self) (h_freq self) extra)
    = (w', Ok Xt) ->
  ndim Xt = 2%nat ->
  exists c out,
    calls routine w (_transform self X y) = [c] /\
    (forall t ch : nat, item (call_data c) [ch; t] = item X [t; ch]) /\
    run routine w (_transform self X y) = (w', Ok out) /\
    (forall t ch : nat, item out [t; ch] = item Xt [ch; t]).
Proof.
  intros Hkw HX Hr HXt.
  destruct (flip_if_2d_2d X T C HX) as [HdX _]. rewrite <- HdX in Hr.
  exists (mk_call (flip_if_2d X) (sfreq self) (l_freq self) (h_freq self)
            extra), (flip_if_2d Xt).
  split; [apply calls_transform_expanded; exact Hkw|].
  split; [intros t ch; cbn [call_data]; rewrite HdX; reflexivity|].
  split; [exact (run_transform_expanded self X y routine w w' extra Xt
                   Hkw Hr)|].
  intros t ch. unfold flip_if_2d. apply Nat.eqb_eq in HXt. rewrite HXt.
  reflexivity.
Qed.

(** X10 at the series of shape (3, 2), numbered row by row, and a routine
    that answers with its input: the routine finds the element 5 of the
    last time step of channel 1 at (1, 2). *)
Lemma transform_2d_elements_witness :
  let self := mk_Filter (VInt 100) (VInt 1) (VInt 10) (VDict []) in
  exists c out,
    calls counting_identity 0%nat (_transform self X_series y_default)
      = [c] /\
    item (call_data c) [1; 2]%nat = SInt 5 /\
    run counting_identity 0%nat (_transform self X_series y_default)
      = (1%nat, Ok out) /\
    item out [2; 1]%nat = SInt 5.
Proof.
  intros self.
  destruct (transform_2d_elements self X_series y_default 3 2 [] nat
              counting_identity 0%nat 1%nat (transpose X_series)
              eq_refl eq_refl eq_refl eq_refl)
    as (c & out & Hcalls & Hin & Hrun & Hout).
  exists c, out. split; [exact Hcalls|].
  split; [rewrite Hin; reflexivity|].
  split; [exact Hrun|].
  rewrite Hout. reflexivity.
Defined.

(** X11: when the routine answers a call with the array it was handed,
    the transform returns an array with the shape of [X] and the elements of
    [X], whatever the number of axes of [X]: the two transpositions undo
    each other. *)
Theorem transform_identity_roundtrip (self : Filter) (X : ndarray)
    (y : label) (extra : list (string * value)) (W : Type)
    (routine : W -> filter_data_call -> W * result ndarray) (w w' : W) :
  expand_kwargs (filter_kwargs self) = Ok extra ->
  (forall c, In c (calls routine w (_transform self X y)) ->
     routine w c = (w', Ok (call_data c))) ->
  exists out,
    run routine w (_transform self X y) = (w', Ok out) /\
    shape out = shape X /\
    forall idx, item out idx = item X idx.
Proof.
  intros Hkw Hid.
  rewrite (calls_transform_expanded self X y routine w extra Hkw) in Hid.
  specialize (Hid _ (or_introl eq_refl)). cbn [call_data] in Hid.
  exists (flip_if_2d (flip_if_2d X)). split.
  - exact (run_transform_expanded self X y routine w w' extra _ Hkw Hid).
  - apply flip_if_2d_twice.
Qed.

Lemma transform_identity_roundtrip_witness :
  let self := mk_Filter (VInt 100) (VInt 1) (VInt 10) (VDict []) in
  exists out,
    run counting_identity 0%nat (_transform self X_series y_default)
      = (1%nat, Ok out) /\
    shape out = [3; 2]%nat /\
    forall idx, item out idx = item X_series idx.
Proof.
  intros self.
  apply (transform_identity_roundtrip self X_series y_default [] nat
           counting_identity 0%nat 1%nat eq_refl).
  intros c [<- | []]. reflexivity.
Defined.

(** X12: construction and transform composed.  Every call that reaches
    the routine from a Filter returned by the constructor carries the
    constructor's own [sfreq], [l_freq] and [h_freq] and the expanded
    [filter_kwargs]; [sfreq] is an [int] or [float], and either a cutoff is
    absent or both are positive with [l_freq <= h_freq]. *)
Theorem constructed_filter_call_invariant
    (sfreq0 l_freq0 h_freq0 kwargs0 : value) (self : Filter) (X : ndarray)
    (y : label) (W : Type)
    (routine : W -> filter_data_call -> W * result ndarray) (w : W)
    (c : filter_data_call) :
  __init__ sfreq0 l_freq0 h_freq0 kwargs0 = Ok self ->
  In c (calls routine w (_transform self X y)) ->
  call_sfreq c = sfreq0 /\ call_l_freq c = l_freq0 /\
  call_h_freq c = h_freq0 /\
  kwargs0 = VDict (dict_of_keywords (call_extra c)) /\
  isinstance (call_sfreq c) [c_int; c_float] = true /\
  (call_l_freq c = VNone \/ call_h_freq c = VNone \/
   (gt (call_l_freq c) (VInt 0) = Ok true /\
    gt (call_h_freq c) (VInt 0) = Ok true /\
    le (call_l_freq c) (call_h_freq c) = Ok true)).
Proof.
  intros Hinit Hin.
  pose proof (init_Ok_conditions _ _ _ _ _ Hinit) as [Htc Hcut].
  apply init_Ok_inv in Hinit. subst self.
  destruct (expand_kwargs kwargs0) as [extra|e] eqn:Hkw.
  - rewrite (calls_transform_expanded
               (mk_Filter sfreq0 l_freq0 h_freq0 kwargs0) X y routine w
               extra Hkw) in Hin.
    destruct Hin as [<- | []]. cbn.
    apply expand_kwargs_Ok_iff in Hkw as [Hkw _].
    apply type_check_parts in Htc as (Hs & _ & _).
    repeat split; assumption.
  - rewrite (transform_not_expanded
               (mk_Filter sfreq0 l_freq0 h_freq0 kwargs0) X y e Hkw) in Hin.
    destruct Hin.
Qed.

(** X12 at [Filter(100, 1, 10, {"method": "iir"})] and the series of shape
    (3, 2). *)
Lemma constructed_filter_call_invariant_witness :
  let kw := VDict [(VStr "method", VStr "iir")] in
  let c := mk_call (transpose X_series) (VInt 100) (VInt 1) (VInt 10)
             [("method", VStr "iir")] in
  __init__ (VInt 100) (VInt 1) (VInt 10) kw
    = Ok (mk_Filter (VInt 100) (VInt 1) (VInt 10) kw) /\
  call_sfreq c = VInt 100 /\ call_l_freq c = VInt 1 /\
  call_h_freq c = VInt 10 /\
  kw = VDict (dict_of_keywords (call_extra c)) /\
  isinstance (call_sfreq c) [c_int; c_float] = true /\
  (call_l_freq c = VNone \/ call_h_freq c = VNone \/
   (gt (call_l_freq c) (VInt 0) = Ok true /\
    gt (call_h_freq c) (VInt 0) = Ok true /\
    le (call_l_freq c) (call_h_freq c) = Ok true)).
Proof.
  intros kw c. split; [reflexivity|].
  apply (constructed_filter_call_invariant (VInt 100) (VInt 1) (VInt 10) kw
           (mk_Filter (VInt 100) (VInt 1) (VInt 10) kw) X_series y_default
           nat counting_identity 0%nat c).
  - reflexivity.
  - left. reflexivity.
Defined.
